(** * Theme manager of the desktop client ([qt/aqt/theme.py])

    A shallow embedding of [ThemeManager]: the mode flag, the icon cache,
    colour lookup, body classes, and palette / stylesheet application.

    Python objects whose identity matters (icons) carry an object id; the
    toolkit application is a record of the three properties the module
    writes; the methods live in a state-and-exception monad over [World]. *)

From Stdlib Require Import ZArith String List Lia.
From stdpp Require Import base strings gmap pretty.

Local Open Scope Z_scope.

(** ** Python primitives used by the module *)

Module Py.

(** Exceptions: [Exception(a, b, ...)] keeps its arguments in [args]. *)
Inductive PyException : Type :=
| Exception (args : list string).

Definition args (e : PyException) : list string :=
  match e with Exception a => a end.

(** Truth value of a [str]: empty is false. *)
Definition bool_str (s : string) : bool :=
  match s with
  | EmptyString => false
  | String _ _ => true
  end.

(** [c and x or y] for a boolean [c] and strings [x], [y]. *)
Definition and_or (c : bool) (x y : string) : string :=
  if c then (if bool_str x then x else y) else y.

(** [sep.join(l)] *)
Fixpoint join (sep : string) (l : list string) : string :=
  match l with
  | [] => ""
  | [x] => x
  | x :: rest => x +:+ sep +:+ join sep rest
  end.

(** [str(n)] for an [int], as an f-string field formats it. *)
Definition str_int (n : Z) : string := pretty n.

End Py.

Import Py.

(** ** Toolkit values *)

Module Qt.

(** Icons, pixmaps and images are kept as the expression that built them. *)
Inductive QIconSrc : Type :=
| QIcon_path (path : string)
| QIcon_pixmap (px : QPixmapSrc)
with QPixmapSrc : Type :=
| pixmap (icon : QIconSrc) (w h : Z)
| QPixmap_image (img : QImageSrc)
with QImageSrc : Type :=
| toImage (px : QPixmapSrc)
| invertPixels (img : QImageSrc).

(** An icon object: Python identity ([is]) is equality of [qicon_id]. *)
Record QIcon : Type := mkQIcon {
  qicon_id : nat;
  qicon_src : QIconSrc
}.

Inductive GlobalColor : Type := red.

Inductive QColorSrc : Type :=
| color_name (s : string)
| color_global (g : GlobalColor).

(** [alpha = None]: whatever the source denotes; [Some a] after
    [setAlpha(a)]. *)
Record QColor : Type := mkQColor {
  color_src : QColorSrc;
  alpha : option Z
}.

Definition QColor_str (s : string) : QColor := mkQColor (color_name s) None.
Definition QColor_global (g : GlobalColor) : QColor := mkQColor (color_global g) None.
Definition setAlpha (a : Z) (c : QColor) : QColor := mkQColor (color_src c) (Some a).

Inductive ColorGroup : Type := Active | Disabled | Inactive.

Inductive ColorRole : Type :=
| WindowText | Button | Light | Midlight | Dark | Mid | Text | BrightText
| ButtonText | Base | Window | Shadow | Highlight | HighlightedText
| Link | LinkVisited | AlternateBase | NoRole | ToolTipBase | ToolTipText
| PlaceholderText.

#[global] Instance ColorGroup_eq_dec : EqDecision ColorGroup.
Proof. solve_decision. Defined.
#[global] Instance ColorRole_eq_dec : EqDecision ColorRole.
Proof. solve_decision. Defined.

(** A palette is the list of the slots that were assigned, newest first;
    a slot that was never assigned keeps the toolkit's default. *)
Definition QPalette : Type := list (ColorGroup * ColorRole * QColor).

Definition QPalette_new : QPalette := [].

(** [palette.setColor(group, role, color)] *)
Definition setColor_in (g : ColorGroup) (r : ColorRole) (c : QColor)
    (p : QPalette) : QPalette :=
  (g, r, c) :: p.

(** [palette.setColor(role, color)]: the role in all colour groups. *)
Definition setColor (r : ColorRole) (c : QColor) (p : QPalette) : QPalette :=
  setColor_in Inactive r c (setColor_in Disabled r c (setColor_in Active r c p)).

(** [palette.color(group, role)], [None] for the toolkit default. *)
Fixpoint color (p : QPalette) (g : ColorGroup) (r : ColorRole) : option QColor :=
  match p with
  | [] => None
  | (g', r', c) :: rest =>
      if decide (g' = g /\ r' = r) then Some c else color rest g r
  end.

(** The roles that have an assigned colour in some group, without repeats. *)
Definition roles_set (p : QPalette) : list ColorRole :=
  remove_dups (map (fun e => snd (fst e)) p).

Inductive QStyle : Type := QStyleFactory_create (key : string).

(** The application object: [None] is the toolkit default. *)
Record QApplication : Type := mkQApplication {
  style : option QStyle;
  palette : option QPalette;
  styleSheet : string
}.

End Qt.

Import Qt.

(** ** Environment and state *)

(** What the module imports and only reads: the platform flags, the OS
    release string and the [style_did_init] filter of [gui_hooks], which takes
    the stylesheet and returns one, or raises. [QIcon_bool] is the truth value
    the toolkit binding gives an icon object in [if icon:]. *)
Record Env : Type := mkEnv {
  isWin : bool;
  isMac : bool;
  platform_release : string;
  style_did_init : string -> PyException + string;
  QIcon_bool : QIcon -> bool
}.

(** The mutable state the methods touch: the attributes of [ThemeManager],
    the imported [colors] table, the application object, the supply of object
    ids, and the log of the arguments [style_did_init] was called with. *)
Record World : Type := mkWorld {
  night_mode : bool;
  _icon_cache : gmap string QIcon;
  colors : gmap string string;
  app : QApplication;
  next_id : nat;
  style_did_init_calls : list string
}.

Definition _icon_size : Z := 128.

(** The class body: [night_mode = True], [_icon_cache = {}]. *)
Definition ThemeManager (colors0 : gmap string string) : World :=
  mkWorld true ∅ colors0 (mkQApplication None None "") 0 [].

Definition set_night_mode (b : bool) (w : World) : World :=
  mkWorld b (_icon_cache w) (colors w) (app w) (next_id w) (style_did_init_calls w).

Definition set_icon_cache (c : gmap string QIcon) (w : World) : World :=
  mkWorld (night_mode w) c (colors w) (app w) (next_id w) (style_did_init_calls w).

Definition set_app (a : QApplication) (w : World) : World :=
  mkWorld (night_mode w) (_icon_cache w) (colors w) a (next_id w) (style_did_init_calls w).

Definition set_next_id (n : nat) (w : World) : World :=
  mkWorld (night_mode w) (_icon_cache w) (colors w) (app w) n (style_did_init_calls w).

Definition set_calls (l : list string) (w : World) : World :=
  mkWorld (night_mode w) (_icon_cache w) (colors w) (app w) (next_id w) l.

(** ** The monad: state passing, with exceptions that keep the state *)

Definition M (A : Type) : Type := World -> (PyException + A) * World.

Definition ret {A} (a : A) : M A := fun w => (inr a, w).

Definition raise {A} (e : PyException) : M A := fun w => (inl e, w).

Definition bind {A B} (m : M A) (k : A -> M B) : M B :=
  fun w =>
    match m w with
    | (inl e, w') => (inl e, w')
    | (inr a, w') => k a w'
    end.

Definition gets {A} (f : World -> A) : M A := fun w => (inr (f w), w).

Definition modify (f : World -> World) : M unit := fun w => (inr tt, f w).

Notation "x <- m ;; k" := (bind m (fun x => k))
  (at level 100, m at next level, right associativity).
Notation "m ;;; k" := (bind m (fun _ => k))
  (at level 100, right associativity).

(** [QIcon(src)]: a new object, with an id no live object has. *)
Definition QIcon_new (src : QIconSrc) : M QIcon :=
  fun w => (inr (mkQIcon (next_id w) src), set_next_id (S (next_id w)) w).

(** [d.setdefault(k, v)] on the icon cache. *)
Definition _icon_cache_setdefault (k : string) (v : QIcon) : M QIcon :=
  fun w =>
    match _icon_cache w !! k with
    | Some v' => (inr v', w)
    | None => (inr v, set_icon_cache (<[k := v]> (_icon_cache w)) w)
    end.

(** ** Methods of [ThemeManager] *)

(** The three stylesheet fragments of [_apply_style], character for character. *)

(** add missing bottom border to menubar *)
Definition menubar_css : string :=
  "
QMenuBar {
  border-bottom: 1px solid #aaa;
  background: white;
}
".

(** set the browser sidebar back *)
Definition treewidget_css : string :=
  "
QTreeWidget {
  background: #eee;
}
            ".

(** tooltip and group box fixes of night mode *)
Definition night_css : string :=
  "
QToolTip {
  border: 0;
}

QGroupBox {
  padding-top: 0px;
}              
            ".

Section Methods.

Variable E : Env.

(** Lines 26-33 of [icon_from_resources]: load the icon, invert it in
    night mode, and store it unless the path already has an entry. *)
Definition icon_load_and_store (path : string) : M QIcon :=
  icon <- QIcon_new (QIcon_path path) ;;
  nm <- gets night_mode ;;
  icon <- (if nm : bool then
             let img := toImage (pixmap (qicon_src icon) _icon_size _icon_size) in
             let img := invertPixels img in
             QIcon_new (QIcon_pixmap (QPixmap_image img))
           else ret icon) ;;
  _icon_cache_setdefault path icon.

(** [icon_from_resources]: fetch icon from Qt resources, and invert if in
    night mode. [if icon:] is false for [None] and for an icon object whose
    truth value is false. *)
Definition icon_from_resources (path : string) : M QIcon :=
  icon <- gets (fun w => _icon_cache w !! path) ;;
  match icon with
  | Some icon => if QIcon_bool E icon then ret icon else icon_load_and_store path
  | None => icon_load_and_store path
  end.

(** [body_class]: space-separated class list for platform/theme. *)
Definition body_class : M string :=
  let classes := [] in
  let classes :=
    if isWin E then classes ++ ["isWin"]
    else if isMac E then classes ++ ["isMac"]
    else classes ++ ["isLin"] in
  nm <- gets night_mode ;;
  let classes := if nm : bool then classes ++ ["nightMode"] else classes in
  ret (join " " classes).

(** [body_classes_for_card_ord]: body classes used when showing a card. *)
Definition body_classes_for_card_ord (card_ord : Z) : M string :=
  bc <- body_class ;;
  ret ("card card" +:+ str_int (card_ord + 1) +:+ " " +:+ bc).

(** [str_color]: the colour stored under the mode's prefix and [key]. *)
Definition str_color (key : string) : M string :=
  nm <- gets night_mode ;;
  let prefix := and_or nm "night-" "day-" in
  c <- gets (fun w => colors w !! (prefix +:+ key)) ;;
  match c with
  | None => raise (Exception ["no such color:"; key])
  | Some c => ret c
  end.

(** [qcolor]: the same colour as a [QColor]. *)
Definition qcolor (key : string) : M QColor :=
  c <- str_color key ;;
  ret (QColor_str c).

Definition app_setStyle (s : QStyle) : M unit :=
  modify (fun w => set_app (mkQApplication (Some s) (palette (app w)) (styleSheet (app w))) w).

Definition app_setPalette (p : QPalette) : M unit :=
  modify (fun w => set_app (mkQApplication (style (app w)) (Some p) (styleSheet (app w))) w).

Definition app_setStyleSheet (s : string) : M unit :=
  modify (fun w => set_app (mkQApplication (style (app w)) (palette (app w)) s) w).

(** [gui_hooks.style_did_init(buf)]: the call is logged, then the filter
    returns or raises. *)
Definition call_style_did_init (buf : string) : M string :=
  modify (fun w => set_calls (style_did_init_calls w ++ [buf]) w) ;;;
  match style_did_init E buf with
  | inl e => raise e
  | inr s => ret s
  end.

(** The buffer [_apply_style] has built when it reaches the hook. *)
Definition style_buf (nm : bool) : string :=
  let buf := "" in
  let buf :=
    if isWin E && String.eqb (platform_release E) "10" && negb nm
    then (buf +:+ menubar_css) +:+ treewidget_css
    else buf in
  let buf := if nm then buf +:+ night_css else buf in
  buf.

Definition _apply_style : M unit :=
  nm <- gets night_mode ;;
  let buf := style_buf nm in
  buf <- call_style_did_init buf ;;
  app_setStyleSheet buf.

Definition _apply_palette : M unit :=
  nm <- gets night_mode ;;
  if negb nm then ret tt
  else
    app_setStyle (QStyleFactory_create "fusion") ;;;
    let palette := QPalette_new in
    text_fg <- qcolor "text-fg" ;;
    let palette := setColor WindowText text_fg palette in
    let palette := setColor ToolTipText text_fg palette in
    let palette := setColor Text text_fg palette in
    let palette := setColor ButtonText text_fg palette in
    hlbg <- qcolor "highlight-bg" ;;
    let hlbg := setAlpha 64 hlbg in
    hlfg <- qcolor "highlight-fg" ;;
    let palette := setColor HighlightedText hlfg palette in
    let palette := setColor Highlight hlbg palette in
    window_bg <- qcolor "window-bg" ;;
    let palette := setColor Window window_bg palette in
    let palette := setColor AlternateBase window_bg palette in
    let palette := setColor Button window_bg palette in
    frame_bg <- qcolor "frame-bg" ;;
    let palette := setColor Base frame_bg palette in
    let palette := setColor ToolTipBase frame_bg palette in
    disabled_color <- qcolor "disabled" ;;
    let palette := setColor_in Disabled Text disabled_color palette in
    let palette := setColor_in Disabled ButtonText disabled_color palette in
    let palette := setColor_in Disabled HighlightedText disabled_color palette in
    link <- qcolor "link" ;;
    let palette := setColor Link link palette in
    let palette := setColor BrightText (QColor_global red) palette in
    app_setPalette palette.

Definition apply_style : M unit :=
  _apply_palette ;;;
  _apply_style.

(** ** Callers: any sequence of method calls and flips of the mode flag.
    A caller may catch an exception and go on, so the run continues from the
    state the failed call left. *)
Inductive Op : Type :=
| op_icon_from_resources (path : string)
| op_body_class
| op_body_classes_for_card_ord (card_ord : Z)
| op_str_color (key : string)
| op_qcolor (key : string)
| op_apply_style
| op__apply_style
| op__apply_palette
| op_set_night_mode (b : bool).

Definition run_op (o : Op) (w : World) : World :=
  match o with
  | op_icon_from_resources p => snd (icon_from_resources p w)
  | op_body_class => snd (body_class w)
  | op_body_classes_for_card_ord n => snd (body_classes_for_card_ord n w)
  | op_str_color k => snd (str_color k w)
  | op_qcolor k => snd (qcolor k w)
  | op_apply_style => snd (apply_style w)
  | op__apply_style => snd (_apply_style w)
  | op__apply_palette => snd (_apply_palette w)
  | op_set_night_mode b => set_night_mode b w
  end.

Definition run_ops (ops : list Op) (w : World) : World :=
  fold_left (fun w o => run_op o w) ops w.

End Methods.

(** ** Reading of the claims *)

(** The prefix of the current mode. *)
Definition mode_prefix (nm : bool) : string :=
  if nm then "night-" else "day-".

(** The platform tag: [isWin] wins over [isMac], anything else is Linux. *)
Definition platform_tag (E : Env) : string :=
  if isWin E then "isWin" else if isMac E then "isMac" else "isLin".

(** The error of a failed colour lookup. *)
Definition no_such_color (key : string) : PyException :=
  Exception ["no such color:"; key].

(** A colour that came out of the table (built from a colour string), as
    opposed to a toolkit constant. *)
Definition table_derived (c : QColor) : bool :=
  match color_src c with
  | color_name _ => true
  | color_global _ => false
  end.

(** The roles a palette assigns a table-derived colour, without repeats. *)
Definition table_roles (p : QPalette) : list ColorRole :=
  remove_dups (map (fun e => snd (fst e)) (filter (fun e => table_derived (snd e) = true) p)).

(** The night palette, slot by slot, from the seven colours of the table. *)
Definition night_palette_slot
    (text_fg highlight_bg highlight_fg window_bg frame_bg disabled link : string)
    (g : ColorGroup) (r : ColorRole) : option QColor :=
  match r with
  | WindowText | ToolTipText => Some (QColor_str text_fg)
  | Text | ButtonText =>
      Some (QColor_str (match g with Disabled => disabled | _ => text_fg end))
  | HighlightedText =>
      Some (QColor_str (match g with Disabled => disabled | _ => highlight_fg end))
  | Highlight => Some (mkQColor (color_name highlight_bg) (Some 64))
  | Window | AlternateBase | Button => Some (QColor_str window_bg)
  | Base | ToolTipBase => Some (QColor_str frame_bg)
  | Link => Some (QColor_str link)
  | BrightText => Some (QColor_global red)
  | _ => None
  end.

(** The application after [_apply_palette] went through in night mode. *)
Definition with_night_palette (p : QPalette) (w : World) : World :=
  set_app (mkQApplication (Some (QStyleFactory_create "fusion")) (Some p) (styleSheet (app w))) w.

(** A computation keeps the icon cache when every entry present before it
    is present, with the same icon object, after it. *)
Definition keeps_cache {A} (m : M A) : Prop :=
  forall w, _icon_cache w ⊆ _icon_cache (snd (m w)).

(** ** Reading of the further properties *)

(** A computation leaves a component of the state as it found it. *)
Definition stable {A B} (proj : World -> B) (m : M A) : Prop :=
  forall w, proj (snd (m w)) = proj w.

(** The semantic names [_apply_palette] looks up, in the order of the calls. *)
Definition palette_keys : list string :=
  ["text-fg"; "highlight-bg"; "highlight-fg"; "window-bg"; "frame-bg"; "disabled"; "link"].

(** The first name of the list that has no night entry in the table. *)
Fixpoint first_missing (tbl : gmap string string) (keys : list string) : option string :=
  match keys with
  | [] => None
  | k :: rest =>
      match tbl !! ("night-" +:+ k) with
      | None => Some k
      | Some _ => first_missing tbl rest
      end
  end.

(** The application after [app.setStyle] alone. *)
Definition with_fusion_style (w : World) : World :=
  set_app (mkQApplication (Some (QStyleFactory_create "fusion"))
             (palette (app w)) (styleSheet (app w))) w.

(** The state after the hook was called with [buf]. *)
Definition with_hook_call (buf : string) (w : World) : World :=
  set_calls (style_did_init_calls w ++ [buf]) w.

(** The application after [app.setStyleSheet(s)]. *)
Definition with_styleSheet (s : string) (w : World) : World :=
  set_app (mkQApplication (style (app w)) (palette (app w)) s) w.

(** The inverted rendering of the icon at [path]. *)
Definition inverted_icon (path : string) : QIconSrc :=
  QIcon_pixmap (QPixmap_image (invertPixels
    (toImage (pixmap (QIcon_path path) _icon_size _icon_size)))).

(** Icon objects of the cache are older than the id supply, and two paths
    never share one object. *)
Definition cache_wf (w : World) : Prop :=
  (forall p i, _icon_cache w !! p = Some i -> (qicon_id i < next_id w)%nat) /\
  (forall p q i j,
     _icon_cache w !! p = Some i -> _icon_cache w !! q = Some j ->
     qicon_id i = qicon_id j -> p = q).

(** The value of the last flip of the mode flag in a run, [nm] if none. *)
Fixpoint last_flip (ops : list Op) (nm : bool) : bool :=
  match ops with
  | [] => nm
  | op_set_night_mode b :: rest => last_flip rest b
  | _ :: rest => last_flip rest nm
  end.

(** The palette lines 114-143 build from the seven colours, in the order of
    the [setColor] calls. *)
Definition night_palette
    (text_fg highlight_bg highlight_fg window_bg frame_bg disabled link : string)
    : QPalette :=
  let palette := QPalette_new in
  let palette := setColor WindowText (QColor_str text_fg) palette in
  let palette := setColor ToolTipText (QColor_str text_fg) palette in
  let palette := setColor Text (QColor_str text_fg) palette in
  let palette := setColor ButtonText (QColor_str text_fg) palette in
  let palette := setColor HighlightedText (QColor_str highlight_fg) palette in
  let palette := setColor Highlight (setAlpha 64 (QColor_str highlight_bg)) palette in
  let palette := setColor Window (QColor_str window_bg) palette in
  let palette := setColor AlternateBase (QColor_str window_bg) palette in
  let palette := setColor Button (QColor_str window_bg) palette in
  let palette := setColor Base (QColor_str frame_bg) palette in
  let palette := setColor ToolTipBase (QColor_str frame_bg) palette in
  let palette := setColor_in Disabled Text (QColor_str disabled) palette in
  let palette := setColor_in Disabled ButtonText (QColor_str disabled) palette in
  let palette := setColor_in Disabled HighlightedText (QColor_str disabled) palette in
  let palette := setColor Link (QColor_str link) palette in
  setColor BrightText (QColor_global red) palette.

(** ** Sample inputs *)

Definition linux_env : Env :=
  mkEnv false false "5.15.0" (fun s => inr (s +:+ "QWidget { margin: 0; }")) (fun _ => true).

Definition win10_env : Env :=
  mkEnv true false "10" (fun s => inr s) (fun _ => true).

Definition sample_colors : gmap string string :=
  list_to_map
    [("day-text-fg", "black"); ("night-text-fg", "white");
     ("night-highlight-bg", "#77ccff"); ("night-highlight-fg", "#000000");
     ("night-window-bg", "#2f2f31"); ("night-frame-bg", "#3a3a3a");
     ("night-disabled", "#777"); ("night-link", "#77ccff")].

Definition night_world : World := ThemeManager sample_colors.

Definition day_world : World := set_night_mode false night_world.

Definition partial_colors : gmap string string :=
  list_to_map
    [("night-text-fg", "white"); ("night-highlight-bg", "#77ccff");
     ("night-highlight-fg", "#000000"); ("night-window-bg", "#2f2f31")].

Definition partial_world : World := ThemeManager partial_colors.

Definition failing_hook_env : Env :=
  mkEnv false true "19.6.0" (fun _ => inl (Exception ["hook failed"])) (fun _ => true).

(** ** Colour lookup *)

Ltac unfold_M :=
  unfold bind, gets, ret, raise, modify in *; simpl in *.

Lemma and_or_prefix (nm : bool) : and_or nm "night-" "day-" = mode_prefix nm.
Proof. destruct nm; reflexivity. Qed.

Lemma str_color_lookup (key : string) (w : World) :
  str_color key w =
    match colors w !! (mode_prefix (night_mode w) +:+ key) with
    | Some c => (inr c, w)
    | None => (inl (no_such_color key), w)
    end.
Proof.
  unfold str_color; unfold_M. rewrite and_or_prefix.
  destruct (colors w !! _); reflexivity.
Qed.

Lemma qcolor_lookup (key : string) (w : World) :
  qcolor key w =
    match colors w !! (mode_prefix (night_mode w) +:+ key) with
    | Some c => (inr (QColor_str c), w)
    | None => (inl (no_such_color key), w)
    end.
Proof.
  unfold qcolor, bind. rewrite str_color_lookup.
  destruct (colors w !! _); reflexivity.
Qed.

(** C1: when the colour table has the key [prefix + k], with the prefix of
    the current mode ("night-" in night mode, "day-" otherwise), [str_color k]
    returns exactly the value stored under that key, in both modes. *)
Theorem str_color_returns_stored (w : World) (k v : string) :
  colors w !! (mode_prefix (night_mode w) +:+ k) = Some v ->
  str_color k w = (inr v, w).
Proof. intros H. rewrite str_color_lookup, H. reflexivity. Qed.

Lemma str_color_returns_stored_night :
  str_color "text-fg" night_world = (inr "white", night_world).
Proof. apply (str_color_returns_stored night_world "text-fg" "white"). reflexivity. Defined.

Example str_color_day : str_color "text-fg" day_world = (inr "black", day_world).
Proof. reflexivity. Qed.

(** C2: when the prefixed key is absent from the colour table, [str_color k]
    raises an exception whose arguments carry [k], in both modes; [qcolor]
    passes it on, and so does any code sequenced after the lookup: nothing
    in the module catches it. *)
Theorem str_color_unknown_raises (w : World) (k : string) :
  colors w !! (mode_prefix (night_mode w) +:+ k) = None ->
  str_color k w = (inl (Exception ["no such color:"; k]), w) /\
  In k (args (Exception ["no such color:"; k])) /\
  qcolor k w = (inl (Exception ["no such color:"; k]), w) /\
  forall (B : Type) (rest : string -> M B),
    (c <- str_color k ;; rest c) w = (inl (Exception ["no such color:"; k]), w).
Proof.
  intros H. repeat split.
  - rewrite str_color_lookup, H. reflexivity.
  - simpl. auto.
  - rewrite qcolor_lookup, H. reflexivity.
  - intros B rest. unfold bind. rewrite str_color_lookup, H. reflexivity.
Qed.

Lemma str_color_unknown_raises_day :
  str_color "frame-bg" day_world = (inl (Exception ["no such color:"; "frame-bg"]), day_world) /\
  In "frame-bg" (args (Exception ["no such color:"; "frame-bg"])) /\
  qcolor "frame-bg" day_world = (inl (Exception ["no such color:"; "frame-bg"]), day_world) /\
  forall (B : Type) (rest : string -> M B),
    (c <- str_color "frame-bg" ;; rest c) day_world
    = (inl (Exception ["no such color:"; "frame-bg"]), day_world).
Proof. apply (str_color_unknown_raises day_world "frame-bg"). reflexivity. Defined.

(** C10: a colour lookup that raises leaves the state as it was: the mode
    flag, the icon cache and the colour table (and everything else) are
    unchanged, for [str_color] and for [qcolor]. *)
Theorem str_color_failure_keeps_state (w w' : World) (k : string) (e : PyException) :
  str_color k w = (inl e, w') ->
  w' = w /\
  night_mode w' = night_mode w /\
  _icon_cache w' = _icon_cache w /\
  colors w' = colors w /\
  qcolor k w = (inl e, w).
Proof.
  intros H. rewrite str_color_lookup in H.
  assert (Hq := qcolor_lookup k w).
  destruct (colors w !! _); inversion H; subst. auto.
Qed.

Lemma str_color_failure_keeps_state_sample :
  day_world = day_world /\
  night_mode day_world = night_mode day_world /\
  _icon_cache day_world = _icon_cache day_world /\
  colors day_world = colors day_world /\
  qcolor "link" day_world = (inl (no_such_color "link"), day_world).
Proof.
  apply (str_color_failure_keeps_state day_world day_world "link" (no_such_color "link")).
  reflexivity.
Defined.

(** ** The mode flag *)

(** C3, as the code has it: a freshly constructed manager is in night mode. *)
Theorem initial_mode_is_night (table : gmap string string) :
  night_mode (ThemeManager table) = true.
Proof. reflexivity. Qed.

Lemma initial_mode_is_not_day : ~ night_mode (ThemeManager sample_colors) = false.
Proof. discriminate. Qed.

(** ** Body classes *)

(** C7: on every platform and in both modes the body class string is one
    platform tag (isWin, isMac or isLin), first, followed by a single space
    and nightMode exactly in night mode, and nothing else. *)
Theorem body_class_shape (E : Env) (w : World) :
  platform_tag E ∈ ["isWin"; "isMac"; "isLin"] /\
  body_class E w =
    (inr (if night_mode w then platform_tag E +:+ " " +:+ "nightMode" else platform_tag E), w).
Proof.
  unfold body_class, platform_tag; unfold_M.
  destruct (isWin E), (isMac E), (night_mode w); simpl; split;
    try reflexivity; set_solver.
Qed.

(** C8: in night mode on Linux, [body_classes_for_card_ord 2] is
    "card card3 isLin nightMode". *)
Theorem body_classes_card3_linux_night (E : Env) (w : World) :
  isWin E = false -> isMac E = false -> night_mode w = true ->
  body_classes_for_card_ord E 2 w = (inr "card card3 isLin nightMode", w).
Proof.
  intros HW HM HN. unfold body_classes_for_card_ord, body_class; unfold_M.
  rewrite HW, HM, HN. reflexivity.
Qed.

Lemma body_classes_card3_linux_night_sample :
  body_classes_for_card_ord linux_env 2 night_world = (inr "card card3 isLin nightMode", night_world).
Proof. apply body_classes_card3_linux_night; reflexivity. Defined.

(** ** Palette application *)

Lemma bind_gets {A B} (f : World -> A) (k : A -> M B) (w : World) :
  (x <- gets f ;; k x) w = k (f w) w.
Proof. reflexivity. Qed.

Lemma bind_modify {B} (f : World -> World) (k : M B) (w : World) :
  (modify f ;;; k) w = k (f w).
Proof. reflexivity. Qed.

Lemma qcolor_bind_night {B} (key c : string) (k : QColor -> M B) (w : World) :
  night_mode w = true ->
  colors w !! ("night-" +:+ key) = Some c ->
  (x <- qcolor key ;; k x) w = k (QColor_str c) w.
Proof.
  intros HN H. unfold bind at 1. rewrite qcolor_lookup, HN. simpl mode_prefix.
  rewrite H. reflexivity.
Qed.

Lemma _apply_palette_day (w : World) :
  night_mode w = false -> _apply_palette w = (inr tt, w).
Proof. intros H. unfold _apply_palette; unfold_M. rewrite H. reflexivity. Qed.

Lemma _apply_palette_night (w : World)
    (text_fg highlight_bg highlight_fg window_bg frame_bg disabled link : string) :
  night_mode w = true ->
  colors w !! "night-text-fg" = Some text_fg ->
  colors w !! "night-highlight-bg" = Some highlight_bg ->
  colors w !! "night-highlight-fg" = Some highlight_fg ->
  colors w !! "night-window-bg" = Some window_bg ->
  colors w !! "night-frame-bg" = Some frame_bg ->
  colors w !! "night-disabled" = Some disabled ->
  colors w !! "night-link" = Some link ->
  exists p : QPalette,
    _apply_palette w = (inr tt, with_night_palette p w) /\
    (forall g r, color p g r =
       night_palette_slot text_fg highlight_bg highlight_fg window_bg frame_bg disabled link g r) /\
    table_roles p =
      [Link; ToolTipBase; Base; Button; AlternateBase; Window; Highlight;
       HighlightedText; ButtonText; Text; ToolTipText; WindowText] /\
    roles_set p = BrightText :: table_roles p.
Proof.
  intros HN H1 H2 H3 H4 H5 H6 H7.
  unfold _apply_palette, app_setStyle, app_setPalette.
  rewrite bind_gets, HN. cbn [negb]. rewrite bind_modify.
  rewrite (qcolor_bind_night "text-fg" text_fg) by (first [exact HN | exact H1]).
  rewrite (qcolor_bind_night "highlight-bg" highlight_bg) by (first [exact HN | exact H2]).
  rewrite (qcolor_bind_night "highlight-fg" highlight_fg) by (first [exact HN | exact H3]).
  rewrite (qcolor_bind_night "window-bg" window_bg) by (first [exact HN | exact H4]).
  rewrite (qcolor_bind_night "frame-bg" frame_bg) by (first [exact HN | exact H5]).
  rewrite (qcolor_bind_night "disabled" disabled) by (first [exact HN | exact H6]).
  rewrite (qcolor_bind_night "link" link) by (first [exact HN | exact H7]).
  eexists; split; [reflexivity|]. split; [|split].
  - intros g r; destruct g, r; reflexivity.
  - vm_compute. reflexivity.
  - vm_compute. reflexivity.
Qed.

(** C5, as the code has it: in day mode [_apply_palette] changes nothing; in
    night mode, when the table has the seven night colours, it selects the
    fusion style and installs a palette whose slots are those of
    [night_palette_slot]: twelve roles with colours from the table (the
    Disabled group of Text, ButtonText and HighlightedText with the disabled
    colour, Highlight with alpha 64), and BrightText with the fixed red. *)
Theorem apply_palette_by_mode (w : World)
    (text_fg highlight_bg highlight_fg window_bg frame_bg disabled link : string) :
  (night_mode w = false -> _apply_palette w = (inr tt, w)) /\
  (night_mode w = true ->
   colors w !! "night-text-fg" = Some text_fg ->
   colors w !! "night-highlight-bg" = Some highlight_bg ->
   colors w !! "night-highlight-fg" = Some highlight_fg ->
   colors w !! "night-window-bg" = Some window_bg ->
   colors w !! "night-frame-bg" = Some frame_bg ->
   colors w !! "night-disabled" = Some disabled ->
   colors w !! "night-link" = Some link ->
   exists p : QPalette,
     _apply_palette w = (inr tt, with_night_palette p w) /\
     (forall g r, color p g r =
        night_palette_slot text_fg highlight_bg highlight_fg window_bg frame_bg disabled link g r) /\
     length (table_roles p) = 12%nat /\
     roles_set p = BrightText :: table_roles p /\
     (forall g, color p g BrightText = Some (QColor_global red))).
Proof.
  split; [apply _apply_palette_day|].
  intros HN H1 H2 H3 H4 H5 H6 H7.
  destruct (_apply_palette_night w _ _ _ _ _ _ _ HN H1 H2 H3 H4 H5 H6 H7)
    as (p & Hrun & Hslot & Htable & Hroles).
  exists p. repeat split; try assumption.
  - rewrite Htable. reflexivity.
  - intros g. rewrite Hslot. reflexivity.
Qed.

Lemma apply_palette_by_mode_sample :
  _apply_palette day_world = (inr tt, day_world) /\
  exists p : QPalette,
    _apply_palette night_world = (inr tt, with_night_palette p night_world) /\
    (forall g r, color p g r =
       night_palette_slot "white" "#77ccff" "#000000" "#2f2f31" "#3a3a3a" "#777" "#77ccff" g r) /\
    length (table_roles p) = 12%nat /\
    roles_set p = BrightText :: table_roles p /\
    (forall g, color p g BrightText = Some (QColor_global red)).
Proof.
  split.
  - apply (proj1 (apply_palette_by_mode day_world "" "" "" "" "" "" "")). reflexivity.
  - apply (proj2 (apply_palette_by_mode night_world
                    "white" "#77ccff" "#000000" "#2f2f31" "#3a3a3a" "#777" "#77ccff"));
      reflexivity.
Defined.

Lemma night_palette_roles_not_ten :
  ~ (forall p : QPalette,
       palette (app (snd (_apply_palette night_world))) = Some p ->
       length (table_roles p) = 10%nat).
Proof.
  intros H. specialize (H _ eq_refl). vm_compute in H. discriminate H.
Qed.

(** With an empty table the first lookup of [_apply_palette] raises, after
    the style was selected; [apply_style] passes the exception on and never
    reaches the stylesheet. *)
Example apply_style_missing_color :
  let w := ThemeManager ∅ in
  let w' := set_app (mkQApplication (Some (QStyleFactory_create "fusion")) None "") w in
  _apply_palette w = (inl (no_such_color "text-fg"), w') /\
  apply_style linux_env w = (inl (no_such_color "text-fg"), w').
Proof. split; reflexivity. Qed.

(** ** Stylesheet application *)

Lemma style_buf_cases (E : Env) (nm : bool) :
  style_buf E nm =
    if nm then night_css
    else if isWin E && String.eqb (platform_release E) "10"
         then menubar_css +:+ treewidget_css
         else "".
Proof.
  unfold style_buf. destruct nm, (isWin E), (String.eqb _ _); reflexivity.
Qed.

(** C6: [_apply_style] calls the hook once, with the buffer built from the
    conditional fragments, and when the hook returns, the stylesheet of the
    application is the returned value. *)
Theorem apply_style_through_hook (E : Env) (w : World) :
  style_did_init_calls (snd (_apply_style E w))
    = style_did_init_calls w ++ [style_buf E (night_mode w)] /\
  forall s : string,
    style_did_init E (style_buf E (night_mode w)) = inr s ->
    fst (_apply_style E w) = inr tt /\
    styleSheet (app (snd (_apply_style E w))) = s.
Proof.
  unfold _apply_style, call_style_did_init, app_setStyleSheet; unfold_M.
  destruct (style_did_init E (style_buf E (night_mode w))) as [e|s'] eqn:Hh; simpl.
  - split; [reflexivity|]. intros s Hs. discriminate Hs.
  - split; [reflexivity|]. intros s Hs. inversion Hs. auto.
Qed.

Lemma apply_style_through_hook_sample :
  fst (_apply_style linux_env night_world) = inr tt /\
  styleSheet (app (snd (_apply_style linux_env night_world)))
    = night_css +:+ "QWidget { margin: 0; }".
Proof.
  apply (proj2 (apply_style_through_hook linux_env night_world)). reflexivity.
Defined.

Example _apply_style_win10_day :
  style_did_init_calls (snd (_apply_style win10_env day_world))
    = [menubar_css +:+ treewidget_css].
Proof. reflexivity. Qed.

(** ** The icon cache *)

Create HintDb keeps discriminated.

Lemma keeps_cache_ret {A} (a : A) : keeps_cache (ret a).
Proof. intros w. reflexivity. Qed.

Lemma keeps_cache_raise {A} (e : PyException) : keeps_cache (@raise A e).
Proof. intros w. reflexivity. Qed.

Lemma keeps_cache_gets {A} (f : World -> A) : keeps_cache (gets f).
Proof. intros w. reflexivity. Qed.

Lemma keeps_cache_modify (f : World -> World) :
  (forall w, _icon_cache (f w) = _icon_cache w) -> keeps_cache (modify f).
Proof. intros H w. simpl. rewrite H. reflexivity. Qed.

Lemma keeps_cache_bind {A B} (m : M A) (k : A -> M B) :
  keeps_cache m -> (forall a, keeps_cache (k a)) -> keeps_cache (x <- m ;; k x).
Proof.
  intros Hm Hk w. unfold bind. specialize (Hm w).
  destruct (m w) as [[e|a] w1]; simpl in *; [exact Hm|].
  etransitivity; [exact Hm|apply Hk].
Qed.

Lemma keeps_cache_QIcon_new (src : QIconSrc) : keeps_cache (QIcon_new src).
Proof. intros w. reflexivity. Qed.

Lemma keeps_cache_setdefault (k : string) (v : QIcon) :
  keeps_cache (_icon_cache_setdefault k v).
Proof.
  intros w. unfold _icon_cache_setdefault.
  destruct (_icon_cache w !! k) eqn:Hk; simpl; [reflexivity|].
  apply insert_subseteq, Hk.
Qed.

#[local] Hint Resolve keeps_cache_ret keeps_cache_raise keeps_cache_gets
  keeps_cache_QIcon_new keeps_cache_setdefault : keeps.

(** Walks a method body: one rule per monad operation, a case split at
    every branch. *)
Ltac keeps_cache_tac :=
  repeat first
    [ apply keeps_cache_bind; [|intros]
    | apply keeps_cache_modify; intros; reflexivity
    | solve [auto with keeps]
    | match goal with
      | |- keeps_cache (if ?b then _ else _) => destruct b
      | |- keeps_cache (match ?x with _ => _ end) => destruct x
      | |- keeps_cache (let _ := _ in _) => cbv zeta
      end ].

Lemma keeps_cache_icon_load_and_store (p : string) :
  keeps_cache (icon_load_and_store p).
Proof. unfold icon_load_and_store. keeps_cache_tac. Qed.

Lemma keeps_cache_icon_from_resources (E : Env) (p : string) :
  keeps_cache (icon_from_resources E p).
Proof.
  unfold icon_from_resources. keeps_cache_tac;
    apply keeps_cache_icon_load_and_store.
Qed.

Lemma keeps_cache_body_class (E : Env) : keeps_cache (body_class E).
Proof. unfold body_class. keeps_cache_tac. Qed.

Lemma keeps_cache_body_classes_for_card_ord (E : Env) (n : Z) :
  keeps_cache (body_classes_for_card_ord E n).
Proof.
  unfold body_classes_for_card_ord.
  apply keeps_cache_bind; [apply keeps_cache_body_class|intros; auto with keeps].
Qed.

Lemma keeps_cache_str_color (k : string) : keeps_cache (str_color k).
Proof. unfold str_color. keeps_cache_tac. Qed.

Lemma keeps_cache_qcolor (k : string) : keeps_cache (qcolor k).
Proof.
  unfold qcolor.
  apply keeps_cache_bind; [apply keeps_cache_str_color|intros; auto with keeps].
Qed.

#[local] Hint Resolve keeps_cache_qcolor : keeps.

Lemma keeps_cache__apply_style (E : Env) : keeps_cache (_apply_style E).
Proof.
  unfold _apply_style, call_style_did_init, app_setStyleSheet. keeps_cache_tac.
Qed.

Lemma keeps_cache__apply_palette : keeps_cache _apply_palette.
Proof.
  unfold _apply_palette, app_setStyle, app_setPalette. keeps_cache_tac.
Qed.

Lemma keeps_cache_apply_style (E : Env) : keeps_cache (apply_style E).
Proof.
  unfold apply_style.
  apply keeps_cache_bind;
    [apply keeps_cache__apply_palette|intros; apply keeps_cache__apply_style].
Qed.

Lemma run_op_keeps_cache (E : Env) (o : Op) (w : World) :
  _icon_cache w ⊆ _icon_cache (run_op E o w).
Proof.
  destruct o; simpl.
  - apply (keeps_cache_icon_from_resources E path w).
  - apply (keeps_cache_body_class E w).
  - apply (keeps_cache_body_classes_for_card_ord E card_ord w).
  - apply (keeps_cache_str_color key w).
  - apply (keeps_cache_qcolor key w).
  - apply (keeps_cache_apply_style E w).
  - apply (keeps_cache__apply_style E w).
  - apply (keeps_cache__apply_palette w).
  - reflexivity.
Qed.

Lemma run_ops_keeps_cache (E : Env) (ops : list Op) :
  forall w, _icon_cache w ⊆ _icon_cache (run_ops E ops w).
Proof.
  induction ops as [|o ops IH]; intros w; simpl.
  - reflexivity.
  - etransitivity; [apply (run_op_keeps_cache E o)|apply IH].
Qed.

(** A path that has an entry gets that entry back, whatever the mode and
    whatever the truth value of the icon object. *)
Lemma icon_from_resources_hit (E : Env) (p : string) (i : QIcon) (w : World) :
  _icon_cache w !! p = Some i ->
  fst (icon_from_resources E p w) = inr i.
Proof.
  intros H. unfold icon_from_resources. rewrite bind_gets, H.
  destruct (QIcon_bool E i); [reflexivity|].
  unfold icon_load_and_store, QIcon_new, _icon_cache_setdefault; unfold_M.
  destruct (night_mode w); simpl; rewrite H; reflexivity.
Qed.

Lemma icon_load_and_store_miss (p : string) (w : World) :
  _icon_cache w !! p = None ->
  exists i, fst (icon_load_and_store p w) = inr i /\
            _icon_cache (snd (icon_load_and_store p w)) !! p = Some i.
Proof.
  intros H.
  unfold icon_load_and_store, QIcon_new, _icon_cache_setdefault; unfold_M.
  destruct (night_mode w); simpl; rewrite H; simpl;
    eexists; (split; [reflexivity|apply lookup_insert_eq]).
Qed.

(** Every call returns an icon, and that icon is the entry of the path
    afterwards. *)
Lemma icon_from_resources_stored (E : Env) (p : string) (w : World) :
  exists i, fst (icon_from_resources E p w) = inr i /\
            _icon_cache (snd (icon_from_resources E p w)) !! p = Some i.
Proof.
  destruct (_icon_cache w !! p) as [i|] eqn:H.
  - exists i. split; [apply icon_from_resources_hit, H|].
    eapply lookup_weaken; [exact H|apply (keeps_cache_icon_from_resources E p w)].
  - unfold icon_from_resources. rewrite bind_gets, H.
    apply icon_load_and_store_miss, H.
Qed.

Lemma icon_load_and_store_night_mode (p : string) (w : World) :
  night_mode (snd (icon_load_and_store p w)) = night_mode w.
Proof.
  unfold icon_load_and_store, QIcon_new, _icon_cache_setdefault; unfold_M.
  destruct (night_mode w) eqn:HN; simpl;
    destruct (_icon_cache w !! p); simpl; auto.
Qed.

Lemma icon_from_resources_night_mode (E : Env) (p : string) (w : World) :
  night_mode (snd (icon_from_resources E p w)) = night_mode w.
Proof.
  unfold icon_from_resources. rewrite bind_gets.
  destruct (_icon_cache w !! p) as [i|]; [destruct (QIcon_bool E i)|];
    try reflexivity; apply icon_load_and_store_night_mode.
Qed.

(** C4: two consecutive calls for the same path, with nothing in between
    (so with the mode flag as the first call left it, which is as it found
    it), return the same icon object: the one the cache holds for the path
    after the first call. *)
Theorem icon_from_resources_idempotent (E : Env) (p : string) (w : World) :
  exists (i : QIcon) (w1 : World),
    icon_from_resources E p w = (inr i, w1) /\
    night_mode w1 = night_mode w /\
    _icon_cache w1 !! p = Some i /\
    fst (icon_from_resources E p w1) = inr i /\
    _icon_cache (snd (icon_from_resources E p w1)) !! p = Some i.
Proof.
  destruct (icon_from_resources_stored E p w) as (i & Hr & Hc).
  assert (HN := icon_from_resources_night_mode E p w).
  destruct (icon_from_resources E p w) as [r w1]; simpl in *; subst r.
  exists i, w1. repeat split; auto.
  - apply icon_from_resources_hit, Hc.
  - eapply lookup_weaken; [exact Hc|apply (keeps_cache_icon_from_resources E p w1)].
Qed.

(** C9: once a call has stored an icon for a path, no sequence of method
    calls and flips of the mode flag removes or replaces the entry, and every
    later call for the path returns that same icon object. *)
Theorem icon_cache_never_invalidated (E : Env) (p : string) (w : World) :
  exists (i : QIcon) (w1 : World),
    icon_from_resources E p w = (inr i, w1) /\
    _icon_cache w1 !! p = Some i /\
    forall ops : list Op,
      _icon_cache (run_ops E ops w1) !! p = Some i /\
      fst (icon_from_resources E p (run_ops E ops w1)) = inr i.
Proof.
  destruct (icon_from_resources_stored E p w) as (i & Hr & Hc).
  destruct (icon_from_resources E p w) as [r w1]; simpl in *; subst r.
  exists i, w1. repeat split; auto.
  - eapply lookup_weaken; [exact Hc|apply run_ops_keeps_cache].
  - apply icon_from_resources_hit.
    eapply lookup_weaken; [exact Hc|apply run_ops_keeps_cache].
Qed.

(** The stale icon: loaded in day mode, returned as it is in night mode. *)
Example stale_icon_after_flip :
  let w1 := snd (icon_from_resources linux_env "icons/star.svg" day_world) in
  let w2 := run_ops linux_env [op_set_night_mode true; op_apply_style] w1 in
  night_mode w2 = true /\
  fst (icon_from_resources linux_env "icons/star.svg" w2)
    = inr (mkQIcon 0 (QIcon_path "icons/star.svg")).
Proof. split; reflexivity. Qed.

Example inverted_icon_in_night_mode :
  fst (icon_from_resources linux_env "icons/star.svg" night_world)
    = inr (mkQIcon 1 (QIcon_pixmap (QPixmap_image (invertPixels
             (toImage (pixmap (QIcon_path "icons/star.svg") 128 128)))))).
Proof. reflexivity. Qed.


(** ** What each method leaves alone *)

Lemma stable_ret {A B} (proj : World -> B) (a : A) : stable proj (ret a).
Proof. intros w. reflexivity. Qed.

Lemma stable_raise {A B} (proj : World -> B) (e : PyException) :
  stable proj (@raise A e).
Proof. intros w. reflexivity. Qed.

Lemma stable_gets {A B} (proj : World -> B) (f : World -> A) : stable proj (gets f).
Proof. intros w. reflexivity. Qed.

Lemma stable_modify {B} (proj : World -> B) (f : World -> World) :
  (forall w, proj (f w) = proj w) -> stable proj (modify f).
Proof. intros H w. apply H. Qed.

Lemma stable_bind {A B C} (proj : World -> C) (m : M A) (k : A -> M B) :
  stable proj m -> (forall a, stable proj (k a)) -> stable proj (x <- m ;; k x).
Proof.
  intros Hm Hk w. unfold bind. specialize (Hm w).
  destruct (m w) as [[e|a] w1]; simpl in *; [exact Hm|].
  rewrite Hk. exact Hm.
Qed.

Lemma stable_QIcon_new {B} (proj : World -> B) (src : QIconSrc) :
  (forall n w, proj (set_next_id n w) = proj w) -> stable proj (QIcon_new src).
Proof. intros H w. apply H. Qed.

Lemma stable_setdefault {B} (proj : World -> B) (k : string) (v : QIcon) :
  (forall c w, proj (set_icon_cache c w) = proj w) ->
  stable proj (_icon_cache_setdefault k v).
Proof.
  intros H w. unfold _icon_cache_setdefault.
  destruct (_icon_cache w !! k); simpl; [reflexivity|apply H].
Qed.

(** Walks a method body for [stable], as [keeps_cache_tac] does for the
    cache. *)
Ltac stable_tac :=
  unfold apply_style, _apply_style, _apply_palette, call_style_did_init,
    app_setStyle, app_setPalette, app_setStyleSheet, qcolor, str_color,
    body_classes_for_card_ord, body_class, icon_from_resources,
    icon_load_and_store;
  repeat first
    [ apply stable_bind; [|intros]
    | apply stable_modify; intros; reflexivity
    | apply stable_QIcon_new; intros; reflexivity
    | apply stable_setdefault; intros; reflexivity
    | apply stable_ret
    | apply stable_raise
    | apply stable_gets
    | match goal with
      | |- stable _ (if ?b then _ else _) => destruct b
      | |- stable _ (match ?x with _ => _ end) => destruct x
      | |- stable _ (let _ := _ in _) => cbv zeta
      end ].

Lemma stable_colors_icon (E : Env) (p : string) : stable colors (icon_from_resources E p).
Proof. stable_tac. Qed.
Lemma stable_colors_apply_style (E : Env) : stable colors (apply_style E).
Proof. stable_tac. Qed.
Lemma stable_colors__apply_style (E : Env) : stable colors (_apply_style E).
Proof. stable_tac. Qed.
Lemma stable_colors__apply_palette : stable colors _apply_palette.
Proof. stable_tac. Qed.

Lemma stable_night_mode_icon (E : Env) (p : string) :
  stable night_mode (icon_from_resources E p).
Proof. stable_tac. Qed.
Lemma stable_night_mode_apply_style (E : Env) : stable night_mode (apply_style E).
Proof. stable_tac. Qed.
Lemma stable_night_mode__apply_style (E : Env) : stable night_mode (_apply_style E).
Proof. stable_tac. Qed.
Lemma stable_night_mode__apply_palette : stable night_mode _apply_palette.
Proof. stable_tac. Qed.

(** The four readers return the state they were given. *)
Lemma body_class_state (E : Env) (w : World) : snd (body_class E w) = w.
Proof. reflexivity. Qed.

Lemma body_classes_for_card_ord_state (E : Env) (n : Z) (w : World) :
  snd (body_classes_for_card_ord E n w) = w.
Proof. reflexivity. Qed.

Lemma str_color_state (k : string) (w : World) : snd (str_color k w) = w.
Proof. rewrite str_color_lookup. destruct (colors w !! _); reflexivity. Qed.

Lemma qcolor_state (k : string) (w : World) : snd (qcolor k w) = w.
Proof. rewrite qcolor_lookup. destruct (colors w !! _); reflexivity. Qed.

Lemma run_ops_cons (E : Env) (o : Op) (ops : list Op) (w : World) :
  run_ops E (o :: ops) w = run_ops E ops (run_op E o w).
Proof. reflexivity. Qed.

Lemma run_op_colors (E : Env) (o : Op) (w : World) :
  colors (run_op E o w) = colors w.
Proof.
  destruct o; simpl.
  - apply (stable_colors_icon E path w).
  - reflexivity.
  - reflexivity.
  - rewrite str_color_state. reflexivity.
  - rewrite qcolor_state. reflexivity.
  - apply (stable_colors_apply_style E w).
  - apply (stable_colors__apply_style E w).
  - apply (stable_colors__apply_palette w).
  - reflexivity.
Qed.

Lemma run_op_night_mode (E : Env) (o : Op) (w : World) :
  night_mode (run_op E o w) =
    match o with op_set_night_mode b => b | _ => night_mode w end.
Proof.
  destruct o; simpl.
  - apply (stable_night_mode_icon E path w).
  - reflexivity.
  - reflexivity.
  - rewrite str_color_state. reflexivity.
  - rewrite qcolor_state. reflexivity.
  - apply (stable_night_mode_apply_style E w).
  - apply (stable_night_mode__apply_style E w).
  - apply (stable_night_mode__apply_palette w).
  - reflexivity.
Qed.

(** X1: no sequence of method calls and mode flips changes the colour
    table: the module only reads it. *)
Theorem colors_never_mutated (E : Env) (ops : list Op) (w : World) :
  colors (run_ops E ops w) = colors w.
Proof.
  revert w. induction ops as [|o ops IH]; intros w; [reflexivity|].
  rewrite run_ops_cons, IH. apply run_op_colors.
Qed.

(** X2: no method changes the mode flag; after any sequence of method calls
    and flips it holds the value of the last flip, or its initial value when
    there was none. *)
Theorem night_mode_is_last_flip (E : Env) (ops : list Op) (w : World) :
  night_mode (run_ops E ops w) = last_flip ops (night_mode w).
Proof.
  revert w. induction ops as [|o ops IH]; intros w; [reflexivity|].
  rewrite run_ops_cons, IH, run_op_night_mode.
  destruct o; reflexivity.
Qed.

(** X3: [body_class], [body_classes_for_card_ord], [str_color] and [qcolor]
    are pure reads: whether they return or raise, the whole state is as it
    was. *)
Theorem readers_keep_state (E : Env) (n : Z) (k : string) (w : World) :
  snd (body_class E w) = w /\
  snd (body_classes_for_card_ord E n w) = w /\
  snd (str_color k w) = w /\
  snd (qcolor k w) = w.
Proof.
  repeat split.
  - apply str_color_state.
  - apply qcolor_state.
Qed.

(** ** Icon lookup in detail *)

Lemma icon_from_resources_miss_eq (E : Env) (p : string) (w : World) :
  _icon_cache w !! p = None ->
  icon_from_resources E p w =
    (inr (if night_mode w
          then mkQIcon (S (next_id w)) (inverted_icon p)
          else mkQIcon (next_id w) (QIcon_path p)),
     set_icon_cache
       (<[p := if night_mode w
               then mkQIcon (S (next_id w)) (inverted_icon p)
               else mkQIcon (next_id w) (QIcon_path p)]> (_icon_cache w))
       (set_next_id (if night_mode w then S (S (next_id w)) else S (next_id w)) w)).
Proof.
  intros H. unfold icon_from_resources. rewrite bind_gets, H.
  unfold icon_load_and_store, QIcon_new, _icon_cache_setdefault; unfold_M.
  destruct (night_mode w) eqn:HN; simpl; rewrite H; unfold set_icon_cache, set_next_id;
    simpl; rewrite HN; reflexivity.
Qed.

(** The state after a lookup: at most the id supply moved and the path got
    its entry. *)
Lemma icon_from_resources_world (E : Env) (p : string) (w : World) :
  exists n c,
    snd (icon_from_resources E p w) = set_icon_cache c (set_next_id n w) /\
    (next_id w <= n)%nat /\
    (forall q, q <> p -> c !! q = _icon_cache w !! q) /\
    (forall i, _icon_cache w !! p = Some i -> c = _icon_cache w) /\
    (_icon_cache w !! p = None ->
     exists i, c = <[p := i]> (_icon_cache w) /\ (next_id w <= qicon_id i < n)%nat).
Proof.
  destruct (_icon_cache w !! p) as [i|] eqn:H.
  - exists (if QIcon_bool E i then next_id w
            else if night_mode w then S (S (next_id w)) else S (next_id w)),
           (_icon_cache w).
    split; [|split; [|split; [|split]]].
    + unfold icon_from_resources. rewrite bind_gets, H.
      destruct (QIcon_bool E i); [destruct w; reflexivity|].
      unfold icon_load_and_store, QIcon_new, _icon_cache_setdefault; unfold_M.
      destruct (night_mode w) eqn:HN; simpl; rewrite H;
        unfold set_icon_cache, set_next_id; simpl; rewrite HN; reflexivity.
    + destruct (QIcon_bool E i), (night_mode w); lia.
    + reflexivity.
    + reflexivity.
    + discriminate.
  - exists (if night_mode w then S (S (next_id w)) else S (next_id w)),
           (<[p := if night_mode w
                   then mkQIcon (S (next_id w)) (inverted_icon p)
                   else mkQIcon (next_id w) (QIcon_path p)]> (_icon_cache w)).
    split; [|split; [|split; [|split]]].
    + rewrite (icon_from_resources_miss_eq E p w H). reflexivity.
    + destruct (night_mode w); lia.
    + intros q Hq. apply lookup_insert_ne. congruence.
    + discriminate.
    + intros _. eexists. split; [reflexivity|].
      destruct (night_mode w); simpl; lia.
Qed.

(** X5: an icon lookup touches nothing but the cache entry of its own path
    and the supply of object ids: the entries of other paths, the mode flag,
    the colour table, the application and the hook log are as before, and an
    existing entry of the path is kept. *)
Theorem icon_from_resources_frame (E : Env) (p : string) (w : World) :
  let w' := snd (icon_from_resources E p w) in
  (forall q, q <> p -> _icon_cache w' !! q = _icon_cache w !! q) /\
  (forall i, _icon_cache w !! p = Some i -> _icon_cache w' = _icon_cache w) /\
  night_mode w' = night_mode w /\
  colors w' = colors w /\
  app w' = app w /\
  style_did_init_calls w' = style_did_init_calls w /\
  (next_id w <= next_id w')%nat.
Proof.
  destruct (icon_from_resources_world E p w) as (n & c & Hw & Hn & Hq & Hhit & _).
  simpl. rewrite Hw. simpl. repeat split; auto.
Qed.

(** X4: the mode at the first load decides the rendering for good. On a
    cache miss the icon is a new object, the plain icon of the path in day
    mode and its inversion at 128x128 in night mode; exactly that object is
    stored under the path, and every later lookup of the path returns it,
    whatever calls and mode flips came in between. *)
Theorem icon_rendering_fixed_at_first_load (E : Env) (p : string) (w : World) :
  _icon_cache w !! p = None ->
  let i := if night_mode w
           then mkQIcon (S (next_id w)) (inverted_icon p)
           else mkQIcon (next_id w) (QIcon_path p) in
  fst (icon_from_resources E p w) = inr i /\
  _icon_cache (snd (icon_from_resources E p w)) = <[p := i]> (_icon_cache w) /\
  forall ops : list Op,
    fst (icon_from_resources E p (run_ops E ops (snd (icon_from_resources E p w)))) = inr i.
Proof.
  intros H. simpl. rewrite (icon_from_resources_miss_eq E p w H). simpl.
  repeat split. intros ops. apply icon_from_resources_hit.
  eapply lookup_weaken; [|apply run_ops_keeps_cache]. simpl.
  apply lookup_insert_eq.
Qed.

Lemma icon_rendering_fixed_at_first_load_sample :
  fst (icon_from_resources linux_env "icons/star.svg" day_world)
    = inr (mkQIcon 0 (QIcon_path "icons/star.svg")) /\
  _icon_cache (snd (icon_from_resources linux_env "icons/star.svg" day_world))
    = <["icons/star.svg" := mkQIcon 0 (QIcon_path "icons/star.svg")]> (_icon_cache day_world) /\
  forall ops : list Op,
    fst (icon_from_resources linux_env "icons/star.svg"
           (run_ops linux_env ops
              (snd (icon_from_resources linux_env "icons/star.svg" day_world))))
      = inr (mkQIcon 0 (QIcon_path "icons/star.svg")).
Proof.
  apply (icon_rendering_fixed_at_first_load linux_env "icons/star.svg" day_world).
  reflexivity.
Defined.

(** ** Freshness of icon objects *)

Lemma cache_wf_initial (tbl : gmap string string) : cache_wf (ThemeManager tbl).
Proof.
  split; simpl.
  - intros p i H. rewrite lookup_empty in H. discriminate.
  - intros p q i j H. rewrite lookup_empty in H. discriminate.
Qed.

Lemma cache_wf_same (w w' : World) :
  _icon_cache w' = _icon_cache w -> (next_id w <= next_id w')%nat ->
  cache_wf w -> cache_wf w'.
Proof.
  intros Hc Hn [Hlt Hinj]. split; rewrite Hc.
  - intros p i H. specialize (Hlt p i H). lia.
  - exact Hinj.
Qed.

Lemma cache_wf_icon_from_resources (E : Env) (p : string) (w : World) :
  cache_wf w -> cache_wf (snd (icon_from_resources E p w)).
Proof.
  intros Hwf.
  destruct (icon_from_resources_world E p w) as (n & c & Hw & Hn & Hq & Hhit & Hmiss).
  rewrite Hw. destruct (_icon_cache w !! p) as [i0|] eqn:H.
  - apply (cache_wf_same w); simpl; [apply (Hhit i0 eq_refl)|exact Hn|exact Hwf].
  - destruct (Hmiss eq_refl) as (i & -> & Hi). destruct Hwf as [Hlt Hinj].
    split; simpl.
    + intros q j Hj. destruct (decide (p = q)) as [->|Hne].
      * rewrite lookup_insert_eq in Hj. inversion Hj; subst. lia.
      * rewrite lookup_insert_ne in Hj by exact Hne. specialize (Hlt q j Hj). lia.
    + intros q1 q2 j1 j2 H1 H2 Hid.
      destruct (decide (p = q1)) as [<-|Hne1], (decide (p = q2)) as [<-|Hne2]; auto.
      * rewrite lookup_insert_eq in H1. rewrite lookup_insert_ne in H2 by exact Hne2.
        inversion H1; subst. specialize (Hlt q2 j2 H2). lia.
      * rewrite lookup_insert_eq in H2. rewrite lookup_insert_ne in H1 by exact Hne1.
        inversion H2; subst. specialize (Hlt q1 j1 H1). lia.
      * rewrite lookup_insert_ne in H1 by exact Hne1.
        rewrite lookup_insert_ne in H2 by exact Hne2. eauto.
Qed.

Lemma stable_cache_apply_style (E : Env) : stable _icon_cache (apply_style E).
Proof. stable_tac. Qed.
Lemma stable_cache__apply_style (E : Env) : stable _icon_cache (_apply_style E).
Proof. stable_tac. Qed.
Lemma stable_cache__apply_palette : stable _icon_cache _apply_palette.
Proof. stable_tac. Qed.
Lemma stable_next_id_apply_style (E : Env) : stable next_id (apply_style E).
Proof. stable_tac. Qed.
Lemma stable_next_id__apply_style (E : Env) : stable next_id (_apply_style E).
Proof. stable_tac. Qed.
Lemma stable_next_id__apply_palette : stable next_id _apply_palette.
Proof. stable_tac. Qed.

Lemma cache_wf_run_op (E : Env) (o : Op) (w : World) :
  cache_wf w -> cache_wf (run_op E o w).
Proof.
  intros Hwf. destruct o; simpl.
  - apply cache_wf_icon_from_resources, Hwf.
  - exact Hwf.
  - exact Hwf.
  - rewrite str_color_state. exact Hwf.
  - rewrite qcolor_state. exact Hwf.
  - apply (cache_wf_same w); [apply (stable_cache_apply_style E w)| |exact Hwf].
    rewrite (stable_next_id_apply_style E w). lia.
  - apply (cache_wf_same w); [apply (stable_cache__apply_style E w)| |exact Hwf].
    rewrite (stable_next_id__apply_style E w). lia.
  - apply (cache_wf_same w); [apply (stable_cache__apply_palette w)| |exact Hwf].
    rewrite (stable_next_id__apply_palette w). lia.
  - exact Hwf.
Qed.

Lemma cache_wf_run_ops (E : Env) (ops : list Op) (w : World) :
  cache_wf w -> cache_wf (run_ops E ops w).
Proof.
  revert w. induction ops as [|o ops IH]; intros w Hwf; [exact Hwf|].
  rewrite run_ops_cons. apply IH, cache_wf_run_op, Hwf.
Qed.

(** X6: starting from a fresh manager, after any sequence of method calls
    and mode flips, two different paths never hold the same icon object, and
    every cached object is older than the next object id. *)
Theorem cached_icons_are_distinct (E : Env) (tbl : gmap string string)
    (ops : list Op) (p q : string) (i j : QIcon) :
  _icon_cache (run_ops E ops (ThemeManager tbl)) !! p = Some i ->
  _icon_cache (run_ops E ops (ThemeManager tbl)) !! q = Some j ->
  p <> q ->
  qicon_id i <> qicon_id j /\
  (qicon_id i < next_id (run_ops E ops (ThemeManager tbl)))%nat.
Proof.
  intros Hi Hj Hne.
  destruct (cache_wf_run_ops E ops _ (cache_wf_initial tbl)) as [Hlt Hinj].
  split; [|eapply Hlt, Hi].
  intros Hid. apply Hne. eapply Hinj; eauto.
Qed.

Lemma cached_icons_are_distinct_sample :
  qicon_id (mkQIcon 1 (inverted_icon "a.svg")) <> qicon_id (mkQIcon 2 (QIcon_path "b.svg")) /\
  (qicon_id (mkQIcon 1 (inverted_icon "a.svg")) <
   next_id (run_ops linux_env
              [op_icon_from_resources "a.svg"; op_set_night_mode false;
               op_icon_from_resources "b.svg"] (ThemeManager sample_colors)))%nat.
Proof.
  apply (cached_icons_are_distinct linux_env sample_colors
           [op_icon_from_resources "a.svg"; op_set_night_mode false;
            op_icon_from_resources "b.svg"] "a.svg" "b.svg").
  - reflexivity.
  - reflexivity.
  - discriminate.
Defined.


(** ** Palette application: failure and repetition *)

Lemma qcolor_bind_night_missing {B} (key : string) (k : QColor -> M B) (w : World) :
  night_mode w = true ->
  colors w !! ("night-" +:+ key) = None ->
  (x <- qcolor key ;; k x) w = (inl (no_such_color key), w).
Proof.
  intros HN H. unfold bind at 1. rewrite qcolor_lookup, HN. simpl mode_prefix.
  rewrite H. reflexivity.
Qed.

(** One lookup of [_apply_palette]: the colour is there and the walk goes on,
    or it is missing and the call stops with its name. *)
Ltac palette_lookup w key HN Hk :=
  let c := fresh "c" in
  destruct (colors w !! ("night-" +:+ key)) as [c|] eqn:Hk;
  [ rewrite (qcolor_bind_night key c) by (first [exact HN | exact Hk])
  | left; exists key; split;
    [ reflexivity
    | rewrite (qcolor_bind_night_missing key) by (first [exact HN | exact Hk]);
      reflexivity ] ].

Lemma _apply_palette_night_cases (w : World) :
  night_mode w = true ->
  (exists k, first_missing (colors w) palette_keys = Some k /\
             _apply_palette w = (inl (no_such_color k), with_fusion_style w)) \/
  (exists c1 c2 c3 c4 c5 c6 c7,
     first_missing (colors w) palette_keys = None /\
     map (fun k => colors w !! ("night-" +:+ k)) palette_keys
       = map Some [c1; c2; c3; c4; c5; c6; c7] /\
     _apply_palette w = (inr tt, with_night_palette (night_palette c1 c2 c3 c4 c5 c6 c7) w)).
Proof.
  intros HN.
  unfold _apply_palette, app_setStyle, app_setPalette.
  rewrite bind_gets, HN. cbn [negb]. rewrite bind_modify.
  unfold palette_keys. cbn [first_missing].
  palette_lookup w "text-fg" HN H1.
  palette_lookup w "highlight-bg" HN H2.
  palette_lookup w "highlight-fg" HN H3.
  palette_lookup w "window-bg" HN H4.
  palette_lookup w "frame-bg" HN H5.
  palette_lookup w "disabled" HN H6.
  palette_lookup w "link" HN H7.
  right. exists c, c0, c1, c2, c3, c4, c5. split; [reflexivity|]. split; [|reflexivity].
  cbn [map]. rewrite H1, H2, H3, H4, H5, H6, H7. reflexivity.
Qed.

(** X7: in night mode [_apply_palette] fails exactly when one of its seven
    names has no night entry; it then raises for the first such name in the
    order of the calls, with the fusion style already selected and the
    palette and stylesheet of the application as they were. *)
Theorem apply_palette_reports_first_missing (w : World) :
  night_mode w = true ->
  match first_missing (colors w) palette_keys with
  | Some k => _apply_palette w = (inl (no_such_color k), with_fusion_style w)
  | None => fst (_apply_palette w) = inr tt
  end.
Proof.
  intros HN.
  destruct (_apply_palette_night_cases w HN)
    as [(k & Hk & Hr)|(c1 & c2 & c3 & c4 & c5 & c6 & c7 & Hk & _ & Hr)];
    rewrite Hk, ?Hr; reflexivity.
Qed.

Lemma apply_palette_reports_first_missing_sample :
  _apply_palette partial_world = (inl (no_such_color "frame-bg"), with_fusion_style partial_world).
Proof. apply (apply_palette_reports_first_missing partial_world). reflexivity. Defined.

(** X8: [_apply_palette] can be repeated: a second call right after the
    first gives the same result and the same state, in either mode and also
    when it fails. *)
Theorem apply_palette_idempotent (w : World) :
  _apply_palette (snd (_apply_palette w)) = _apply_palette w.
Proof.
  destruct (night_mode w) eqn:HN.
  - destruct (_apply_palette_night_cases w HN)
      as [(k & Hk & Hr)|(c1 & c2 & c3 & c4 & c5 & c6 & c7 & Hk & Hc & Hr)]; rewrite Hr; simpl snd.
    + destruct (_apply_palette_night_cases (with_fusion_style w) HN)
        as [(k' & Hk' & Hr')|(d1 & d2 & d3 & d4 & d5 & d6 & d7 & Hk' & _ & _)].
      * change (first_missing (colors w) palette_keys = Some k') in Hk'.
        rewrite Hk in Hk'. inversion Hk'; subst k'. exact Hr'.
      * change (first_missing (colors w) palette_keys = None) in Hk'.
        rewrite Hk in Hk'. discriminate Hk'.
    + destruct (_apply_palette_night_cases
                  (with_night_palette (night_palette c1 c2 c3 c4 c5 c6 c7) w) HN)
        as [(k' & Hk' & _)|(d1 & d2 & d3 & d4 & d5 & d6 & d7 & _ & Hd & Hr')].
      * change (first_missing (colors w) palette_keys = Some k') in Hk'.
        rewrite Hk in Hk'. discriminate Hk'.
      * change (map (fun k => colors w !! ("night-" +:+ k)) palette_keys
                = map Some [d1; d2; d3; d4; d5; d6; d7]) in Hd.
        rewrite Hc in Hd. inversion Hd; subst. exact Hr'.
  - rewrite (_apply_palette_day w HN). simpl. apply _apply_palette_day, HN.
Qed.

(** ** [apply_style]: how the two halves compose *)

Lemma stable_calls__apply_palette : stable style_did_init_calls _apply_palette.
Proof. stable_tac. Qed.

Lemma stable_styleSheet__apply_palette :
  stable (fun w => styleSheet (app w)) _apply_palette.
Proof. stable_tac. Qed.

Lemma stable_style__apply_style (E : Env) :
  stable (fun w => style (app w)) (_apply_style E).
Proof. stable_tac. Qed.

Lemma stable_palette__apply_style (E : Env) :
  stable (fun w => palette (app w)) (_apply_style E).
Proof. stable_tac. Qed.

(** X9: when [_apply_palette] raises, [apply_style] stops there: it returns
    that exception and that state, the hook is not called and the stylesheet
    is not replaced. *)
Theorem apply_style_stops_at_palette_error (E : Env) (w : World) (e : PyException) :
  fst (_apply_palette w) = inl e ->
  apply_style E w = _apply_palette w /\
  fst (apply_style E w) = inl e /\
  style_did_init_calls (snd (apply_style E w)) = style_did_init_calls w /\
  styleSheet (app (snd (apply_style E w))) = styleSheet (app w).
Proof.
  intros H.
  assert (Heq : apply_style E w = _apply_palette w).
  { unfold apply_style, bind. destruct (_apply_palette w) as [[e'|[]] w1]; simpl in H;
      [reflexivity|discriminate H]. }
  rewrite Heq. repeat split.
  - exact H.
  - apply (stable_calls__apply_palette w).
  - apply (stable_styleSheet__apply_palette w).
Qed.

Lemma apply_style_stops_at_palette_error_sample :
  apply_style linux_env partial_world = _apply_palette partial_world /\
  fst (apply_style linux_env partial_world) = inl (no_such_color "frame-bg") /\
  style_did_init_calls (snd (apply_style linux_env partial_world))
    = style_did_init_calls partial_world /\
  styleSheet (app (snd (apply_style linux_env partial_world)))
    = styleSheet (app partial_world).
Proof.
  apply (apply_style_stops_at_palette_error linux_env partial_world). reflexivity.
Defined.

(** X10: in night mode, with the seven night colours in the table and a hook
    that returns [s] for the night fragment, [apply_style] succeeds and leaves
    the application with the fusion style, the night palette and the
    stylesheet [s]; the hook was called once, with the night fragment. *)
Theorem apply_style_night_installs_both (E : Env) (w : World) (s : string) :
  night_mode w = true ->
  first_missing (colors w) palette_keys = None ->
  style_did_init E night_css = inr s ->
  exists c1 c2 c3 c4 c5 c6 c7,
    map (fun k => colors w !! ("night-" +:+ k)) palette_keys
      = map Some [c1; c2; c3; c4; c5; c6; c7] /\
    apply_style E w =
      (inr tt,
       with_styleSheet s (with_hook_call night_css
         (with_night_palette (night_palette c1 c2 c3 c4 c5 c6 c7) w))) /\
    app (snd (apply_style E w)) =
      mkQApplication (Some (QStyleFactory_create "fusion"))
        (Some (night_palette c1 c2 c3 c4 c5 c6 c7)) s.
Proof.
  intros HN Hk Hs.
  destruct (_apply_palette_night_cases w HN)
    as [(k & Hk' & _)|(c1 & c2 & c3 & c4 & c5 & c6 & c7 & _ & Hc & Hr)];
    [rewrite Hk in Hk'; discriminate Hk'|].
  exists c1, c2, c3, c4, c5, c6, c7. split; [exact Hc|].
  assert (Hrun : apply_style E w =
      (inr tt, with_styleSheet s (with_hook_call night_css
         (with_night_palette (night_palette c1 c2 c3 c4 c5 c6 c7) w)))).
  { unfold apply_style, bind at 1. rewrite Hr.
    unfold _apply_style, call_style_did_init, app_setStyleSheet.
    rewrite bind_gets.
    change (night_mode (with_night_palette (night_palette c1 c2 c3 c4 c5 c6 c7) w))
      with (night_mode w).
    rewrite HN, style_buf_cases. unfold_M. rewrite Hs. reflexivity. }
  split; [exact Hrun|]. rewrite Hrun. reflexivity.
Qed.

Lemma apply_style_night_installs_both_sample :
  exists c1 c2 c3 c4 c5 c6 c7,
    map (fun k => colors night_world !! ("night-" +:+ k)) palette_keys
      = map Some [c1; c2; c3; c4; c5; c6; c7] /\
    apply_style linux_env night_world =
      (inr tt,
       with_styleSheet (night_css +:+ "QWidget { margin: 0; }")
         (with_hook_call night_css
            (with_night_palette (night_palette c1 c2 c3 c4 c5 c6 c7) night_world))) /\
    app (snd (apply_style linux_env night_world)) =
      mkQApplication (Some (QStyleFactory_create "fusion"))
        (Some (night_palette c1 c2 c3 c4 c5 c6 c7)) (night_css +:+ "QWidget { margin: 0; }").
Proof.
  apply (apply_style_night_installs_both linux_env night_world); reflexivity.
Defined.

(** X11: in day mode [apply_style] never touches the style or the palette of
    the application, whatever the hook does: a night palette installed
    earlier stays. It does what [_apply_style] does. *)
Theorem apply_style_day_keeps_palette (E : Env) (w : World) :
  night_mode w = false ->
  apply_style E w = _apply_style E w /\
  style (app (snd (apply_style E w))) = style (app w) /\
  palette (app (snd (apply_style E w))) = palette (app w).
Proof.
  intros HN.
  assert (Heq : apply_style E w = _apply_style E w).
  { unfold apply_style, bind at 1. rewrite (_apply_palette_day w HN). reflexivity. }
  rewrite Heq. repeat split.
  - apply (stable_style__apply_style E w).
  - apply (stable_palette__apply_style E w).
Qed.

Lemma apply_style_day_keeps_palette_sample :
  let w := set_night_mode false (snd (apply_style linux_env night_world)) in
  apply_style linux_env w = _apply_style linux_env w /\
  style (app (snd (apply_style linux_env w))) = Some (QStyleFactory_create "fusion") /\
  palette (app (snd (apply_style linux_env w))) = palette (app w).
Proof.
  apply (apply_style_day_keeps_palette linux_env
           (set_night_mode false (snd (apply_style linux_env night_world)))).
  reflexivity.
Defined.

(** ** Stylesheet application: the hook's argument, failure and repetition *)

Lemma _apply_style_returns (E : Env) (w : World) (s : string) :
  style_did_init E (style_buf E (night_mode w)) = inr s ->
  _apply_style E w =
    (inr tt, with_styleSheet s (with_hook_call (style_buf E (night_mode w)) w)).
Proof.
  intros H. unfold _apply_style, call_style_did_init, app_setStyleSheet; unfold_M.
  rewrite H. reflexivity.
Qed.

(** X12: the text the hook receives: the night fragment in night mode on
    every platform (the Windows 10 fix is left out even on Windows 10); in day
    mode the menu bar and tree widget fix on Windows with release "10", and
    the empty string everywhere else. *)
Theorem hook_receives_by_platform (E : Env) (w : World) :
  style_did_init_calls (snd (_apply_style E w)) =
    style_did_init_calls w ++
      [if night_mode w then night_css
       else if isWin E && String.eqb (platform_release E) "10"
            then menubar_css +:+ treewidget_css
            else ""].
Proof.
  rewrite <- style_buf_cases.
  unfold _apply_style, call_style_did_init, app_setStyleSheet; unfold_M.
  destruct (style_did_init E (style_buf E (night_mode w))); reflexivity.
Qed.

(** X13: when the hook raises, [_apply_style] passes the exception on and
    the application keeps the stylesheet (and everything else) it had; only
    the call of the hook is on record. *)
Theorem apply_style_hook_raises (E : Env) (w : World) (e : PyException) :
  style_did_init E (style_buf E (night_mode w)) = inl e ->
  _apply_style E w = (inl e, with_hook_call (style_buf E (night_mode w)) w) /\
  app (snd (_apply_style E w)) = app w.
Proof.
  intros H.
  assert (Hrun : _apply_style E w
                 = (inl e, with_hook_call (style_buf E (night_mode w)) w)).
  { unfold _apply_style, call_style_did_init, app_setStyleSheet; unfold_M.
    rewrite H. reflexivity. }
  rewrite Hrun. split; reflexivity.
Qed.

Lemma apply_style_hook_raises_sample :
  _apply_style failing_hook_env day_world
    = (inl (Exception ["hook failed"]), with_hook_call "" day_world) /\
  app (snd (_apply_style failing_hook_env day_world)) = app day_world.
Proof.
  apply (apply_style_hook_raises failing_hook_env day_world). reflexivity.
Defined.

(** X14: the stylesheet is replaced, not extended: a second [_apply_style]
    right after the first leaves the application exactly as the first did,
    and the hook has been called twice with the same text. *)
Theorem apply_style_twice_replaces (E : Env) (w : World) (s : string) :
  style_did_init E (style_buf E (night_mode w)) = inr s ->
  fst (_apply_style E (snd (_apply_style E w))) = inr tt /\
  app (snd (_apply_style E (snd (_apply_style E w)))) = app (snd (_apply_style E w)) /\
  styleSheet (app (snd (_apply_style E (snd (_apply_style E w))))) = s /\
  style_did_init_calls (snd (_apply_style E (snd (_apply_style E w))))
    = style_did_init_calls w ++ [style_buf E (night_mode w); style_buf E (night_mode w)].
Proof.
  intros H. rewrite (_apply_style_returns E w s H). simpl snd.
  rewrite (_apply_style_returns E
             (with_styleSheet s (with_hook_call (style_buf E (night_mode w)) w)) s H).
  simpl. repeat split. rewrite <- app_assoc. reflexivity.
Qed.

Lemma apply_style_twice_replaces_sample :
  fst (_apply_style linux_env (snd (_apply_style linux_env night_world))) = inr tt /\
  app (snd (_apply_style linux_env (snd (_apply_style linux_env night_world))))
    = app (snd (_apply_style linux_env night_world)) /\
  styleSheet (app (snd (_apply_style linux_env (snd (_apply_style linux_env night_world)))))
    = night_css +:+ "QWidget { margin: 0; }" /\
  style_did_init_calls (snd (_apply_style linux_env (snd (_apply_style linux_env night_world))))
    = style_did_init_calls night_world ++ [night_css; night_css].
Proof.
  apply (apply_style_twice_replaces linux_env night_world). reflexivity.
Defined.

(** ** Card classes *)

Lemma string_length_app (a s : string) :
  String.length (a +:+ s) = (String.length a + String.length s)%nat.
Proof. induction a as [|c a IH]; simpl; [reflexivity|]. rewrite IH. reflexivity. Qed.

Lemma string_app_inj_r (s a b : string) : a +:+ s = b +:+ s -> a = b.
Proof.
  revert b. induction a as [|c a IH]; intros [|d b] H; simpl in H.
  - reflexivity.
  - apply (f_equal String.length) in H. simpl in H. rewrite ?string_length_app in H.
    simpl in H. lia.
  - apply (f_equal String.length) in H. simpl in H. rewrite ?string_length_app in H.
    simpl in H. lia.
  - inversion H; subst. f_equal. apply IH. assumption.
Qed.

Lemma body_classes_for_card_ord_returns (E : Env) (n : Z) (w : World) :
  exists bc,
    body_class E w = (inr bc, w) /\
    body_classes_for_card_ord E n w
      = (inr ("card card" +:+ pretty (n + 1) +:+ " " +:+ bc), w).
Proof.
  unfold body_classes_for_card_ord, body_class; unfold_M.
  eexists. split; reflexivity.
Qed.

(** X15: in one state, two different card ordinals (negative ones included)
    never give the same class string. *)
Theorem body_classes_for_card_ord_distinct (E : Env) (w : World) (m n : Z) :
  m <> n ->
  fst (body_classes_for_card_ord E m w) <> fst (body_classes_for_card_ord E n w).
Proof.
  intros Hne H.
  destruct (body_classes_for_card_ord_returns E m w) as (bc & Hbc & Hm).
  destruct (body_classes_for_card_ord_returns E n w) as (bc' & Hbc' & Hn).
  rewrite Hbc in Hbc'. inversion Hbc'; subst bc'.
  rewrite Hm, Hn in H. simpl in H. inversion H as [H'].
  assert (Hp : (pretty (m + 1) : string) = pretty (n + 1))
    by (apply (string_app_inj_r (" " +:+ bc)); exact H').
  apply (inj pretty) in Hp. lia.
Qed.

Lemma body_classes_for_card_ord_distinct_sample :
  fst (body_classes_for_card_ord win10_env 0 day_world)
    <> fst (body_classes_for_card_ord win10_env (-1) day_world).
Proof. apply (body_classes_for_card_ord_distinct win10_env day_world 0 (-1)). lia. Defined.
